(** * ross: the [PointMass] element and the rubbing run

    Shallow embedding of [ross/point_mass.py] and of the rubbing run that
    [ross/tests/test_rubbing.py] drives, with the properties their
    specification states. *)

From Stdlib Require Import ZArith QArith Reals Lra Lia List.
From stdpp Require Import gmap strings.
Import ListNotations.

(** ** numpy, as far as [point_mass.py] uses it *)

Module np.

(** One entry of an array.  A numeric entry is its value; [None] is Python's
    [None] held by an array of dtype object, which is what [np.array] builds
    when one of the given entries is [None]. *)
Definition entry : Type := option Q.

(** A two-dimensional array, row by row. *)
Definition ndarray : Type := list (list entry).

(** [np.array(rows)] on a nested list literal. *)
Definition array (rows : list (list entry)) : ndarray := rows.

(** [np.zeros((r, c))]. *)
Definition zeros (shape : nat * nat) : ndarray :=
  repeat (repeat (Some 0%Q) (snd shape)) (fst shape).

(** [a.shape] of an array whose rows all have [c] entries. *)
Definition has_shape (a : ndarray) (r c : nat) : Prop :=
  length a = r /\ Forall (fun row => length row = c) a.

(** [a[i, j]]; [None] of the outer option is an index out of range. *)
Definition item (a : ndarray) (i j : nat) : option entry :=
  match nth_error a i with
  | Some row => nth_error row j
  | None => None
  end.

(** An array all of whose entries are numbers: none is [None]. *)
Definition numeric (a : ndarray) : Prop :=
  Forall (Forall (fun e : entry => is_Some e)) a.

End np.

(** ** Python, as far as the plotting methods of [point_mass.py] use it *)

Module py.

(** The values that reach the plotting calls: [None], ints, floats and
    strings. *)
Inductive value : Type :=
| VNone
| VInt (z : Z)
| VFloat (q : Q)
| VStr (s : string).

Definition of_int (n : option Z) : value :=
  match n with Some z => VInt z | None => VNone end.

Definition of_float (x : option Q) : value :=
  match x with Some q => VFloat q | None => VNone end.

Definition of_str (t : option string) : value :=
  match t with Some s => VStr s | None => VNone end.

(** The exceptions these methods can raise by themselves. *)
Inductive exception : Type := NameError | IndexError | TypeError.

Inductive result (A : Type) : Type :=
| Return (a : A)
| Raise (e : exception).
Arguments Return {A} a.
Arguments Raise {A} e.

(** Statements that act on a store [S] and may raise; what follows a raise
    does not run. *)
Definition stmt (S A : Type) : Type := S -> result A * S.

#[global] Instance stmt_ret {S : Type} : MRet (stmt S) :=
  fun A (a : A) s => (Return a, s).

#[global] Instance stmt_bind {S : Type} : MBind (stmt S) :=
  fun A B (k : A -> stmt S B) (c : stmt S A) s =>
    match c s with
    | (Return a, s') => k a s'
    | (Raise e, s') => (Raise e, s')
    end.

(** An expression that does not touch the store. *)
Definition eval {S A : Type} (r : result A) : stmt S A := fun s => (r, s).

(** Loading a global name: its binding in the module namespace, and a
    [NameError] when the namespace does not bind it. *)
Definition load_global {A : Type} (binding : option A) : result A :=
  match binding with
  | Some a => Return a
  | None => Raise NameError
  end.

(** [l[i]] on a sequence, for a literal index [i >= 0]. *)
Definition subscript {A : Type} (l : list A) (i : nat) : result A :=
  match l !! i with
  | Some a => Return a
  | None => Raise IndexError
  end.

(** [d.setdefault(k, v)], for its effect on [d]. *)
Definition setdefault (k : string) (v : value) (d : gmap string value)
  : gmap string value :=
  match d !! k with
  | Some _ => d
  | None => <[k := v]> d
  end.

(** [for k, v in default_values.items(): kwargs.setdefault(k, v)]; the
    items of a dict come in insertion order. *)
Definition setdefaults (default_values : list (string * value))
    (kwargs : gmap string value) : gmap string value :=
  foldl (fun d kv => setdefault (fst kv) (snd kv) d) kwargs default_values.

(** A call [f(k1=..., ..., kn=..., **kwargs)]: a keyword given both
    explicitly and in [kwargs] is a [TypeError]. *)
Definition keywords (explicit : list string) (kwargs : gmap string value)
  : result unit :=
  if decide (Exists (fun k => is_Some (kwargs !! k)) explicit)
  then Raise TypeError
  else Return tt.

End py.

(** ** matplotlib and bokeh, as far as [point_mass.py] calls them

    A call into a plotting library is modelled by what it is given: the
    object built from the arguments, and the drawing it is added to. *)

Module mpatches.

Record Circle : Type := {
  xy : Q * Q;
  radius : Q;
  props : gmap string py.value
}.

(** [mpatches.Circle(xy=xy, radius=radius, **kwargs)] *)
Definition Circle_ (xy : Q * Q) (radius : Q) (kwargs : gmap string py.value)
  : py.result Circle :=
  match py.keywords ["xy"; "radius"] kwargs with
  | py.Raise e => py.Raise e
  | py.Return _ => py.Return {| xy := xy; radius := radius; props := kwargs |}
  end.

(** The axes, by the patches added to them, oldest first. *)
Definition Axes : Type := list Circle.

(** [ax.add_patch(p)] *)
Definition add_patch (p : Circle) : py.stmt Axes unit :=
  fun ax => (py.Return tt, ax ++ [p]).

End mpatches.

Module bokeh.

(** [ColumnDataSource(data)]: named columns. *)
Record ColumnDataSource : Type := {
  data : list (string * list py.value)
}.

(** A circle glyph as [bk_ax.circle] is asked to draw it. *)
Record Glyph : Type := {
  x : string;
  y : string;
  radius : Q;
  source : ColumnDataSource;
  name : string;
  props : gmap string py.value
}.

(** The figure, by the glyphs drawn on it, oldest first. *)
Definition Figure : Type := list Glyph.

(** [bk_ax.circle(x=x, y=y, radius=radius, source=source, name=name,
    **kwargs)] *)
Definition circle (x y : string) (radius : Q) (source : ColumnDataSource)
    (name : string) (kwargs : gmap string py.value) : py.stmt Figure unit :=
  fun bk_ax =>
    match py.keywords ["x"; "y"; "radius"; "source"; "name"] kwargs with
    | py.Raise e => (py.Raise e, bk_ax)
    | py.Return _ =>
        (py.Return tt,
         bk_ax ++ [{| x := x; y := y; radius := radius; source := source;
                      name := name; props := kwargs |}])
    end.

(** A [HoverTool], by the attributes [bokeh_patch] sets; an attribute the
    code has not set is [None] and keeps the library's default. *)
Record HoverTool : Type := {
  names : list string;
  tooltips : option (list (string * string));
  mode : option string
}.

(** [HoverTool(names=names)] *)
Definition HoverTool_ (names : list string) : HoverTool :=
  {| names := names; tooltips := None; mode := None |}.

End bokeh.

(** ** [ross/point_mass.py] *)

Module point_mass.

(** An instance of [class PointMass]: the five attributes [__init__] sets.
    Every constructor argument defaults to [None]. *)
Record PointMass : Type := {
  n : option Z;
  m : option Q;
  mx : option Q;
  my : option Q;
  tag : option string
}.

(** [PointMass.__init__(self, n=None, m=None, mx=None, my=None, tag=None)]. *)
Definition __init__ (n : option Z) (m mx my : option Q) (tag : option string)
  : PointMass :=
  let '(mx, my) :=
    match mx, my with
    | None, None => (m, m)
    | _, _ => (mx, my)
    end in
  {| n := n; m := m; mx := mx; my := my; tag := tag |}.

(** A method body runs against [self] and hands the object back next to its
    return value, so that what a call does to the object can be stated. *)
Definition method (A : Type) : Type := PointMass -> A * PointMass.

#[export] Instance method_ret : MRet method :=
  fun A (a : A) self => (a, self).

#[export] Instance method_bind : MBind method :=
  fun A B (k : A -> method B) (c : method A) self =>
    let '(a, self') := c self in k a self'.

#[export] Instance method_fmap : FMap method :=
  fun A B (f : A -> B) (c : method A) self =>
    let '(a, self') := c self in (f a, self').

(** [self.attr] *)
Definition getattr {A : Type} (attr : PointMass -> A) : method A :=
  fun self => (attr self, self).

(** [def M(self)] *)
Definition M : method np.ndarray :=
  mx ← getattr mx;
  my ← getattr my;
  mret (np.array [[mx; Some 0%Q];
                  [Some 0%Q; my]]).

(** [def C(self)] *)
Definition C : method np.ndarray := mret (np.zeros (2, 2)%nat).

(** [def K(self)] *)
Definition K : method np.ndarray := mret (np.zeros (2, 2)%nat).

(** [def G(self)] *)
Definition G : method np.ndarray := mret (np.zeros (2, 2)%nat).

(** [def dof_mapping(self)]: [dict(x_0=0, y_0=1)]. *)
Definition dof_mapping : method (gmap string nat) :=
  mret ({[ "x_0" := 0%nat; "y_0" := 1%nat ]} : gmap string nat).

(** The element interface: the five operations every element exposes. *)
Inductive operation : Type := OpM | OpC | OpK | OpG | OpDofMapping.

Inductive returned : Type :=
| Matrix (a : np.ndarray)
| Mapping (d : gmap string nat).

Definition call (op : operation) : method returned :=
  match op with
  | OpM => Matrix <$> M
  | OpC => Matrix <$> C
  | OpK => Matrix <$> K
  | OpG => Matrix <$> G
  | OpDofMapping => Mapping <$> dof_mapping
  end.

(** A program that calls the operations in the order of [ops] on one
    object and collects what they return. *)
Fixpoint calls (ops : list operation) : method (list returned) :=
  match ops with
  | [] => mret []
  | op :: ops' =>
      r ← call op;
      rs ← calls ops';
      mret (r :: rs)
  end.

(** [def __hash__(self)]: [hash(self.tag)].  The builtin [hash] on a tag
    ([None] or a string) is a parameter. *)
Definition __hash__ (hash : option string -> Z) : method Z :=
  tag ← getattr tag;
  mret (hash tag).

(** The global names the bodies of [patch] and [bokeh_patch] load, each
    with its binding in the module namespace, if it has one: the palette
    [bokeh_colors], a sequence of colour names, and the plotting names
    [mpatches] (the field [mpatches_]), [ColumnDataSource] and [HoverTool],
    which the models above stand for when they are bound. *)
Record Globals : Type := {
  bokeh_colors : option (list string);
  mpatches_ : option unit;
  ColumnDataSource : option unit;
  HoverTool : option unit
}.

(** The namespace of the module as it is written: it binds [np], [Element],
    [__all__] and [PointMass] (lines 5 to 11) and none of the four names. *)
Definition module_globals : Globals :=
  {| bokeh_colors := None;
     mpatches_ := None;
     ColumnDataSource := None;
     HoverTool := None |}.

Section Plotting.

(** The namespace the methods run in. *)
Variable globals : Globals.

(** [def patch(self, position, ax, **kwargs)], acting on the axes [ax].
    The method returns nothing. *)
Definition patch (self : PointMass) (position : Q * Q)
    (kwargs : gmap string py.value) : py.stmt mpatches.Axes unit :=
  let '(zpos, ypos) := position in
  let radius := (ypos / 8)%Q in
  palette ← py.eval (py.load_global (bokeh_colors globals));
  color ← py.eval (py.subscript palette 7);
  let default_values := [("alpha", py.VFloat 1); ("color", py.VStr color)] in
  let kwargs := py.setdefaults default_values kwargs in
  _ ← py.eval (py.load_global (mpatches_ globals));
  upper ← py.eval (mpatches.Circle_ (zpos, ypos) radius kwargs);
  _ ← mpatches.add_patch upper;
  _ ← py.eval (py.load_global (mpatches_ globals));
  lower ← py.eval (mpatches.Circle_ (zpos, - ypos)%Q radius kwargs);
  mpatches.add_patch lower.

(** [def bokeh_patch(self, position, bk_ax, **kwargs)], acting on the
    figure [bk_ax]; it returns the hover tool. *)
Definition bokeh_patch (self : PointMass) (position : Q * Q)
    (kwargs : gmap string py.value) : py.stmt bokeh.Figure bokeh.HoverTool :=
  let '(zpos, ypos) := position in
  let radius := (ypos / 8)%Q in
  palette ← py.eval (py.load_global (bokeh_colors globals));
  line_color ← py.eval (py.subscript palette 0);
  palette ← py.eval (py.load_global (bokeh_colors globals));
  fill_color ← py.eval (py.subscript palette 7);
  let default_values :=
    [("line_width", py.VFloat 2);
     ("line_color", py.VStr line_color);
     ("fill_alpha", py.VFloat 1);
     ("fill_color", py.VStr fill_color);
     ("legend", py.VStr "Point Mass")] in
  let kwargs := py.setdefaults default_values kwargs in
  let z_upper := [py.VFloat zpos] in
  let y_upper := [py.VFloat ypos] in
  let z_lower := [py.VFloat zpos] in
  let y_lower := [py.VFloat (- ypos)%Q] in
  _ ← py.eval (py.load_global (ColumnDataSource globals));
  let source :=
    {| bokeh.data :=
         [("z_l", z_lower);
          ("y_l", y_lower);
          ("z_u", z_upper);
          ("y_u", y_upper);
          ("elnum", [py.of_int (n self)]);
          ("mx", [py.of_float (mx self)]);
          ("my", [py.of_float (my self)]);
          ("tag", [py.of_str (tag self)])] |} in
  _ ← bokeh.circle "z_l" "y_l" radius source "pmass_l" kwargs;
  _ ← bokeh.circle "z_u" "y_u" radius source "pmass_u" kwargs;
  _ ← py.eval (py.load_global (HoverTool globals));
  let hover := bokeh.HoverTool_ ["pmass_l"; "pmass_u"] in
  let hover :=
    {| bokeh.names := bokeh.names hover;
       bokeh.tooltips :=
         Some [("Point Mass Node :", "@elnum");
               ("Mass (x) :", "@mx");
               ("Mass (y) :", "@my");
               ("Tag :", "@tag")];
       bokeh.mode := bokeh.mode hover |} in
  let hover :=
    {| bokeh.names := bokeh.names hover;
       bokeh.tooltips := bokeh.tooltips hover;
       bokeh.mode := Some "mouse" |} in
  mret hover.

End Plotting.

End point_mass.

(** ** The rubbing run

    [test_rubbing.py] calls [rotor.run_rubbing(...)] and reads the attributes
    of what it returns.  The module that implements the run is not among the
    sources, so this part follows the specification of the run: its
    configuration, the contact law, the integrator's states and the result. *)

Module rubbing.

Local Open Scope R_scope.

#[export] Instance Rlt_decision (x y : R) : Decision (x < y) := Rlt_dec x y.
#[export] Instance Rle_decision (x y : R) : Decision (x <= y) := Rle_dec x y.

(** Modelled from the spec: the [speed] option (spec section 6), a float
    or a callable speed profile. *)
Inductive Speed : Type :=
| Constant (w : R)
| Profile (w : R -> R).

(** Modelled from the spec: the input configuration of [run_rubbing]
    (spec section 6); the keyword arguments of the call in the [rub]
    fixture of the test. *)
Record Config : Type := {
  dt : R;
  tI : R;
  tF : R;
  deltaRUB : R;
  kRUB : R;
  cRUB : R;
  miRUB : R;
  posRUB : Z;
  speed : Speed;
  massunb : list R;
  phaseunb : list R;
  print_progress : bool
}.

(** Modelled from the spec: the two formulations of a node (spec section
    3): 6 DOFs, or the 2 lateral ones. *)
Inductive Formulation : Type := SixDoF | LateralOnly.

(** Modelled from the spec: the number of DOFs a node owns. *)
Definition dofs_per_node (f : Formulation) : nat :=
  match f with
  | SixDoF => 6
  | LateralOnly => 2
  end.

(** Modelled from the spec: what the integrator takes from the rotor
    (spec section 6, assembled matrices interface): the global matrices and
    the count of DOFs per node. *)
Record Rotor : Type := {
  nNodes : nat;
  formulation : Formulation;
  M : list (list R);
  C : list (list R);
  K : list (list R);
  G : list (list R)
}.

(** Modelled from the spec: the total number of DOFs, [6 * nNodes] or
    [2 * nNodes] (spec section 4.2). *)
Definition ndof (rotor : Rotor) : nat :=
  (dofs_per_node (formulation rotor) * nNodes rotor)%nat.

(** Modelled from the spec: the simulation state (spec section 3),
    displacement and velocity of length nDOF. *)
Record State : Type := { u : list R; v : list R }.

(** Modelled from the spec: the sign convention for friction at zero
    tangential velocity.  The specification asks for one fixed convention
    and leaves open which (sections 4.4 and 9). *)
Inductive Sign : Type := Minus | Null | Plus.

(** Modelled from the spec: the factor a sign stands for. *)
Definition sign_value (s : Sign) : R :=
  match s with
  | Minus => -1
  | Null => 0
  | Plus => 1
  end.

(** Modelled from the spec: the parts of the engine the specification
    leaves to the implementation: the unbalance force generator (section
    4.3), the numerical scheme that advances [(u, v)] by one step (section
    4.5, step 5) and the sign convention at rest (sections 4.4 and 9). *)
Record Engine : Type := {
  unbalance_force : Rotor -> Config -> R -> list R;
  advance : Rotor -> Config -> R -> list R -> State -> State;
  rest_sign : Sign
}.

Module Result.
(** Modelled from the spec: the result object (spec section 6, output):
    the configuration parameters as attributes, [forces_rub] and the
    displacement and velocity histories, one column per timestep. *)
Record t : Type := {
  dt : R;
  tI : R;
  tF : R;
  deltaRUB : R;
  kRUB : R;
  cRUB : R;
  miRUB : R;
  posRUB : Z;
  speed : Speed;
  forces_rub : list (list R);
  displacement : list (list R);
  velocity : list (list R)
}.
End Result.

(** Modelled from the spec: [forces_rub[i, k]], the force at DOF [i] and
    timestep [k]. *)
Definition forces_rub_at (res : Result.t) (i k : nat) : R :=
  nth i (nth k (Result.forces_rub res) []) 0.


(** Modelled from the spec: the configuration error of setup (section 7). *)
Inductive Error : Type := ConfigurationError.

(** *** Contact law (spec section 4.4) *)

(** Modelled from the spec: [atan2(y, x)], the contact angle. *)
Definition atan2 (y x : R) : R :=
  if decide (0 < x) then atan (y / x)
  else if decide (x < 0) then
    (if decide (y < 0) then atan (y / x) - PI else atan (y / x) + PI)
  else if decide (0 < y) then PI / 2
  else if decide (y < 0) then - (PI / 2)
  else 0.

Section ContactLaw.

Variable engine : Engine.
Variable cfg : Config.

(** Modelled from the spec: radial penetration
    [delta = sqrt(x^2 + y^2) - deltaRUB]. *)
Definition penetration (x y : R) : R :=
  sqrt (x ^ 2 + y ^ 2) - deltaRUB cfg.

(** Modelled from the spec: [Fn = kRUB*delta + cRUB*delta_dot], clamped
    to be non-negative. *)
Definition normal_force (delta delta_dot : R) : R :=
  Rmax 0 (kRUB cfg * delta + cRUB cfg * delta_dot).

(** Modelled from the spec: [Ft = miRUB*Fn]. *)
Definition friction_force (Fn : R) : R := miRUB cfg * Fn.

(** Modelled from the spec: the direction in which friction acts along
    the tangent: against the tangential velocity, and by the fixed
    convention when that velocity is exactly zero. *)
Definition friction_direction (vt : R) : R :=
  if decide (0 < vt) then -1
  else if decide (vt < 0) then 1
  else sign_value (rest_sign engine).

(** Modelled from the spec: the radial component, at contact angle [phi],
    of a vector given in global x, y. *)
Definition radial (phi ax ay : R) : R := ax * cos phi + ay * sin phi.

(** Modelled from the spec: its tangential component. *)
Definition tangential (phi ax ay : R) : R := - ax * sin phi + ay * cos phi.

(** Modelled from the spec: the projection of radial and tangential
    components back to global x, y. *)
Definition project (phi fr ft : R) : R * R :=
  (fr * cos phi - ft * sin phi, fr * sin phi + ft * cos phi).

(** Modelled from the spec: the contact force at the rub node in global
    x, y, from the node's displacement [(x, y)] and velocity [(vx, vy)]. *)
Definition rub_force (x y vx vy : R) : R * R :=
  let delta := penetration x y in
  if decide (delta <= 0) then (0, 0)
  else
    let phi := atan2 y x in
    let Fn := normal_force delta (radial phi vx vy) in
    let Ft := friction_force Fn in
    project phi Fn (friction_direction (tangential phi vx vy) * Ft).


End ContactLaw.

(** *** Time integrator (spec section 4.5) *)

(** Modelled from the spec: the retained history, one column per step. *)
Record History : Type := {
  hist_u : list (list R);
  hist_v : list (list R);
  hist_f : list (list R)
}.

(** Modelled from the spec: the states of the integrator.  [Initialized],
    [Stepping] and [Completed] are the three states of section 4.5;
    [Configured] is the run before setup and [Failed] the run that setup
    refused (section 7). *)
Inductive Machine : Type :=
| Configured
| Initialized (s : State)
| Stepping (k : nat) (s : State) (h : History)
| Completed (res : Result.t)
| Failed (e : Error).

Section Integrator.

Variable engine : Engine.
Variable rotor : Rotor.
Variable cfg : Config.

(** Modelled from the spec: the configurations that setup refuses
    (section 7): [dt <= 0], [tF <= tI], [posRUB] out of the node range,
    [massunb] and [phaseunb] of different lengths. *)
Definition invalid_config : bool :=
  bool_decide (dt cfg <= 0)
  || bool_decide (tF cfg <= tI cfg)
  || negb (bool_decide (0 <= posRUB cfg < Z.of_nat (nNodes rotor))%Z)
  || negb (bool_decide (length (massunb cfg) = length (phaseunb cfg))).

(** Modelled from the spec: the number of samples of the time grid,
    [N = (tF - tI)/dt + 1] (section 3). *)
Definition samples : nat :=
  Z.to_nat (Int_part ((tF cfg - tI cfg) / dt cfg) + 1).

(** Modelled from the spec: the time of sample [k]. *)
Definition sample_time (k : nat) : R := tI cfg + INR k * dt cfg.

(** Modelled from the spec: the index of the x DOF of the rub node; the
    y DOF follows it ([posRUB*6] and [posRUB*6 + 1] in the test). *)
Definition rub_dof : nat :=
  (Z.to_nat (posRUB cfg) * dofs_per_node (formulation rotor))%nat.

(** Modelled from the spec: the state at [t = tI], all zero. *)
Definition initial_state : State :=
  {| u := repeat 0 (ndof rotor); v := repeat 0 (ndof rotor) |}.

(** Modelled from the spec: the contact force as a vector over all DOFs:
    zero, with the two components of [rub_force] written at the rub node.
    Setup has refused a [posRUB] outside the node range, so both indices
    are in range whenever a step runs. *)
Definition rub_force_vector (s : State) : list R :=
  let ii := rub_dof in
  let '(Fx, Fy) :=
    rub_force engine cfg (nth ii (u s) 0) (nth (S ii) (u s) 0)
                         (nth ii (v s) 0) (nth (S ii) (v s) 0) in
  <[S ii := Fy]> (<[ii := Fx]> (repeat 0 (ndof rotor))).

(** Modelled from the spec: one step (section 4.5, steps 1 to 6).  The
    histories are indexed by time (section 3) over the [N] samples from
    [tI] to [tF], and [forces_rub] is nonzero only at timesteps with
    nonzero penetration (section 6): column [k] of the three histories
    belongs to the sample time [t_k], and holds the displacement and the
    velocity at [t_k] and the contact force evaluated from them.  The
    advanced state is the state at [t_(k+1)]. *)
Definition step (k : nat) (s : State) (h : History) : State * History :=
  let t := sample_time k in
  let Fu := unbalance_force engine rotor cfg t in
  let Fr := rub_force_vector s in
  let F := zip_with Rplus Fu Fr in
  let s' := advance engine rotor cfg t F s in
  (s', {| hist_u := hist_u h ++ [u s];
          hist_v := hist_v h ++ [v s];
          hist_f := hist_f h ++ [Fr] |}).

(** Modelled from the spec: the result handed to the caller. *)
Definition finish (h : History) : Result.t :=
  {| Result.dt := dt cfg;
     Result.tI := tI cfg;
     Result.tF := tF cfg;
     Result.deltaRUB := deltaRUB cfg;
     Result.kRUB := kRUB cfg;
     Result.cRUB := cRUB cfg;
     Result.miRUB := miRUB cfg;
     Result.posRUB := posRUB cfg;
     Result.speed := speed cfg;
     Result.forces_rub := hist_f h;
     Result.displacement := hist_u h;
     Result.velocity := hist_v h |}.

(** Modelled from the spec: the transitions of the integrator. *)
Definition transition (st : Machine) : Machine :=
  match st with
  | Configured =>
      if invalid_config then Failed ConfigurationError
      else Initialized initial_state
  | Initialized s =>
      Stepping 0 s {| hist_u := []; hist_v := []; hist_f := [] |}
  | Stepping k s h =>
      if (k <? samples)%nat then
        let '(s', h') := step k s h in Stepping (S k) s' h'
      else Completed (finish h)
  | Completed res => Completed res
  | Failed e => Failed e
  end.

(** Modelled from the spec: the state and the history after the first [k]
    steps of the run. *)
Fixpoint stepping (k : nat) : State * History :=
  match k with
  | O => (initial_state, {| hist_u := []; hist_v := []; hist_f := [] |})
  | S k' => step k' (fst (stepping k')) (snd (stepping k'))
  end.

(** Modelled from the spec: the displacement and velocity from which step
    [k] evaluates its forces. *)
Definition state_at (k : nat) : State := fst (stepping k).

(** Modelled from the spec: [fuel] transitions from [st]. *)
Fixpoint run (fuel : nat) (st : Machine) : Machine :=
  match fuel with
  | O => st
  | S fuel' => run fuel' (transition st)
  end.

(** Modelled from the spec: [rotor.run_rubbing(...)]: setup, the run
    start, one transition per sample and the completion. *)
Definition run_rubbing : Machine := run (samples + 3) Configured.

End Integrator.

(** *** The run of the test *)

(** The keyword arguments of [rotor.run_rubbing] in the [rub] fixture of
    [test_rubbing.py]. *)
Definition rub_config : Config :=
  {| dt := 1 / 1000;
     tI := 0;
     tF := 1 / 2;
     deltaRUB := 795 / 10000000;
     kRUB := 1100000;
     cRUB := 40;
     miRUB := 3 / 10;
     posRUB := 12;
     speed := Constant 1200;
     massunb := [5 / 10000; 0];
     phaseunb := [- PI / 2; 0];
     print_progress := true |}.

(** A rotor in the 6-DOF formulation of which only the number of nodes is
    given; the rotor of the test has 34 nodes (33 shaft elements). *)
Definition bare_rotor (nodes : nat) : Rotor :=
  {| nNodes := nodes; formulation := SixDoF;
     M := []; C := []; K := []; G := [] |}.

(** An engine without unbalance whose scheme leaves the state where it is. *)
Definition still_engine : Engine :=
  {| unbalance_force := fun _ _ _ => [];
     advance := fun _ _ _ _ s => s;
     rest_sign := Null |}.

End rubbing.

(** ** [ross/tests/test_rubbing.py]: the shaft of the test rotor *)

Module test_rubbing.

(** [[L[i] - L[i - 1] for i in range(1, len(L))]], the lengths of the
    shaft elements from the positions of the nodes.  [None] is an
    [IndexError]. *)
Definition differences (L : list Q) : option (list Q) :=
  mapM (fun i : nat =>
          a ← L !! i;
          b ← L !! (i - 1)%nat;
          Some (a - b)%Q)
       (seq 1 (length L - 1)).

(** [L = np.array([0, 25, ..., 914]) / 1000], the positions of the nodes. *)
Definition L : list Q :=
  (fun mm : Z => inject_Z mm / 1000)%Q <$>
    [0; 25; 64; 104; 124; 143; 175; 207; 239; 271;
     303; 335; 345; 355; 380; 408; 436; 466; 496; 526;
     556; 586; 614; 647; 657; 667; 702; 737; 772; 807;
     842; 862; 881; 914]%Z.

End test_rubbing.

(** * Properties *)

(** ** The [PointMass] element *)

Section PointMassProperties.

Import point_mass.

(** What an operation returns, read off the object alone. *)
Lemma call_frame (op : operation) (self : PointMass) :
  snd (call op self) = self.
Proof. destruct op; reflexivity. Qed.

Lemma calls_cons (op : operation) (ops : list operation) (self : PointMass) :
  calls (op :: ops) self =
  (fst (call op self) :: fst (calls ops (snd (call op self))),
   snd (calls ops (snd (call op self)))).
Proof.
  cbn [calls]. unfold mbind, method_bind, mret, method_ret.
  destruct (call op self) as [r self1]. cbn [fst snd].
  destruct (calls ops self1) as [rs self2]. reflexivity.
Qed.

Lemma calls_frame (ops : list operation) (self : PointMass) :
  snd (calls ops self) = self.
Proof.
  induction ops as [|op ops IH]; [reflexivity|].
  rewrite calls_cons. cbn [snd]. rewrite call_frame. exact IH.
Qed.

Lemma calls_results (ops : list operation) (self : PointMass) :
  fst (calls ops self) = map (fun op => fst (call op self)) ops.
Proof.
  induction ops as [|op ops IH]; [reflexivity|].
  rewrite calls_cons. cbn [fst map]. rewrite call_frame, IH. reflexivity.
Qed.

(** The examples of the class docstring. *)
Example p0_M :
  fst (M (__init__ (Some 0%Z) (Some 2%Q) None None None))
  = [[Some 2%Q; Some 0%Q]; [Some 0%Q; Some 2%Q]].
Proof. reflexivity. Qed.

Example p1_M :
  fst (M (__init__ (Some 0%Z) None (Some 2%Q) (Some 3%Q) None))
  = [[Some 2%Q; Some 0%Q]; [Some 0%Q; Some 3%Q]].
Proof. reflexivity. Qed.

(** C7: for every PointMass element, [M()] is the 2x2 diagonal matrix with
    [mx] and [my] on the diagonal and 0 off it, [mx] and [my] being the
    directional masses the element was constructed with when at least one
    of them was given; an element constructed from a single mass [m], with
    neither [mx] nor [my], has [M() = diag(m, m)]. *)
Theorem C7_M_is_diag_mx_my :
  (forall self : PointMass,
      fst (M self) = [[mx self; Some 0%Q]; [Some 0%Q; my self]]
      /\ np.has_shape (fst (M self)) 2 2
      /\ np.item (fst (M self)) 0 0 = Some (mx self)
      /\ np.item (fst (M self)) 0 1 = Some (Some 0%Q)
      /\ np.item (fst (M self)) 1 0 = Some (Some 0%Q)
      /\ np.item (fst (M self)) 1 1 = Some (my self))
  /\ (forall (n : option Z) (m : option Q) (tag : option string),
         fst (M (__init__ n m None None tag))
         = [[m; Some 0%Q]; [Some 0%Q; m]])
  /\ (forall (n : option Z) (m mx my : option Q) (tag : option string),
         fst (M (__init__ n m mx my tag))
         = match mx, my with
           | None, None => [[m; Some 0%Q]; [Some 0%Q; m]]
           | _, _ => [[mx; Some 0%Q]; [Some 0%Q; my]]
           end)
  /\ (forall (n : option Z) (m : option Q) (a b : Q) (tag : option string),
         let self := __init__ n m (Some a) (Some b) tag in
         mx self = Some a /\ my self = Some b
         /\ fst (M self) = [[Some a; Some 0%Q]; [Some 0%Q; Some b]]).
Proof.
  split; [|split; [|split]].
  - intros self. repeat split. repeat constructor.
  - intros n m tag. reflexivity.
  - intros n m mx my tag. destruct mx, my; reflexivity.
  - intros n m a b tag self. repeat split.
Qed.

(** C8: whatever the constructor arguments were, also a node index with no
    mass at all, [C()], [K()] and [G()] are the 2x2 zero matrix, and
    [dof_mapping()] maps [x_0] to 0 and [y_0] to 1 and nothing else. *)
Theorem C8_C_K_G_zero_and_dof_mapping :
  let zero2 := [[Some 0%Q; Some 0%Q]; [Some 0%Q; Some 0%Q]] in
  (forall self : PointMass,
      fst (C self) = zero2 /\ fst (K self) = zero2 /\ fst (G self) = zero2
      /\ fst (dof_mapping self) !! "x_0" = Some 0%nat
      /\ fst (dof_mapping self) !! "y_0" = Some 1%nat
      /\ dom (fst (dof_mapping self)) = ({[ "x_0"; "y_0" ]} : gset string))
  /\ (forall (n : option Z) (tag : option string),
         let self := __init__ n None None None tag in
         fst (C self) = zero2 /\ fst (K self) = zero2 /\ fst (G self) = zero2).
Proof.
  intros zero2. split.
  - intros self. repeat split; reflexivity.
  - intros n tag self. repeat split.
Qed.

(** C9: [M()], [C()], [K()], [G()] and [dof_mapping()] are pure: any
    sequence of calls leaves [n], [m], [mx], [my] and [tag] as they were,
    every call returns what it returns on the untouched object, and so two
    calls of one operation return equal results wherever they occur. *)
Theorem C9_operations_are_pure :
  forall (self : PointMass) (ops : list operation),
    let self' := snd (calls ops self) in
    self' = self
    /\ n self' = n self /\ m self' = m self /\ mx self' = mx self
    /\ my self' = my self /\ tag self' = tag self
    /\ fst (calls ops self) = map (fun op => fst (call op self)) ops
    /\ (forall op : operation, call op self' = (fst (call op self), self))
    /\ (forall (i j : nat) (op : operation),
           ops !! i = Some op -> ops !! j = Some op ->
           fst (calls ops self) !! i = fst (calls ops self) !! j).
Proof.
  intros self ops self'.
  assert (Hframe : self' = self) by apply calls_frame.
  rewrite Hframe. repeat split; try reflexivity.
  - apply calls_results.
  - intros op. rewrite <- (call_frame op self) at 3.
    destruct (call op self); reflexivity.
  - intros i j op Hi Hj. rewrite calls_results, !list_lookup_fmap, Hi, Hj.
    reflexivity.
Qed.

(** C10: with exactly one of [mx], [my] given and [m] not given, the
    fallback to [m] does not apply: the other directional mass stays [None]
    and [M()] holds [None], not a numeric zero, at its place. *)
Theorem C10_missing_directional_mass_stays_None :
  forall (n : option Z) (tag : option string) (a : Q),
    let px := __init__ n None (Some a) None tag in
    let py := __init__ n None None (Some a) tag in
    (mx px = Some a /\ my px = None
     /\ fst (M px) = [[Some a; Some 0%Q]; [Some 0%Q; None]]
     /\ np.item (fst (M px)) 1 1 = Some None
     /\ np.item (fst (M px)) 1 1 <> Some (Some 0%Q))
    /\ (mx py = None /\ my py = Some a
        /\ fst (M py) = [[None; Some 0%Q]; [Some 0%Q; Some a]]
        /\ np.item (fst (M py)) 0 0 = Some None
        /\ np.item (fst (M py)) 0 0 <> Some (Some 0%Q)).
Proof.
  intros n tag a px py. repeat split; discriminate.
Qed.

End PointMassProperties.

(** ** The contact law *)

Section ContactLawProperties.

Import rubbing.
Local Open Scope R_scope.

Variable engine : Engine.
Variable cfg : Config.


Lemma rub_force_contact (x y vx vy : R) :
  0 < penetration cfg x y ->
  rub_force engine cfg x y vx vy =
  let phi := atan2 y x in
  let Fn := normal_force cfg (penetration cfg x y) (radial phi vx vy) in
  project phi Fn
    (friction_direction engine (tangential phi vx vy) * friction_force cfg Fn).
Proof.
  intros Hd. unfold rub_force.
  destruct (decide (penetration cfg x y <= 0)) as [Hle|_].
  - exfalso. lra.
  - reflexivity.
Qed.

Lemma normal_force_nonneg (delta delta_dot : R) :
  0 <= normal_force cfg delta delta_dot.
Proof. unfold normal_force. apply Rmax_l. Qed.

Lemma friction_direction_opposes (vt : R) :
  friction_direction engine vt * vt <= 0.
Proof.
  unfold friction_direction.
  destruct (decide (0 < vt)) as [Hp|Hp].
  - lra.
  - destruct (decide (vt < 0)) as [Hn|Hn].
    + lra.
    + assert (vt = 0) as -> by lra. lra.
Qed.

(** Decomposing a projected force in the local frame gives the local
    components back. *)
Lemma radial_project (phi fr ft : R) :
  radial phi (fst (project phi fr ft)) (snd (project phi fr ft)) = fr.
Proof.
  unfold radial, project. cbn [fst snd].
  transitivity (fr * (Rsqr (sin phi) + Rsqr (cos phi))).
  - unfold Rsqr. ring.
  - rewrite sin2_cos2. ring.
Qed.

Lemma tangential_project (phi fr ft : R) :
  tangential phi (fst (project phi fr ft)) (snd (project phi fr ft)) = ft.
Proof.
  unfold tangential, project. cbn [fst snd].
  transitivity (ft * (Rsqr (sin phi) + Rsqr (cos phi))).
  - unfold Rsqr. ring.
  - rewrite sin2_cos2. ring.
Qed.

End ContactLawProperties.

(** ** The integrator *)

Section IntegratorProperties.

Import rubbing.
Local Open Scope R_scope.

Variable engine : Engine.
Variable rotor : Rotor.
Variable cfg : Config.

Local Abbreviation run := (run engine rotor cfg).
Local Abbreviation transition := (transition engine rotor cfg).
Local Abbreviation stepping := (stepping engine rotor cfg).
Local Abbreviation samples := (samples cfg).

Lemma run_transition (fuel : nat) (st : Machine) :
  run (S fuel) st = transition (run fuel st).
Proof.
  revert st. induction fuel as [|fuel IH]; intros st; [reflexivity|].
  change (run (S (S fuel)) st) with (run (S fuel) (transition st)).
  rewrite IH. reflexivity.
Qed.

Lemma run_Failed (fuel : nat) (e : Error) : run fuel (Failed e) = Failed e.
Proof. induction fuel as [|fuel IH]; [reflexivity|exact IH]. Qed.

Lemma run_stepping (k : nat) :
  (k <= samples)%nat ->
  run k (Stepping 0 (initial_state rotor)
           {| hist_u := []; hist_v := []; hist_f := [] |})
  = Stepping k (fst (stepping k)) (snd (stepping k)).
Proof.
  induction k as [|k IH]; intros Hk; [reflexivity|].
  rewrite run_transition, IH by lia. cbn [rubbing.transition].
  replace (k <? samples)%nat with true by (symmetry; apply Nat.ltb_lt; lia).
  cbn [rubbing.stepping].
  destruct (step engine rotor cfg k (fst (stepping k)) (snd (stepping k))).
  reflexivity.
Qed.

(** A configuration that setup accepts runs to completion. *)
Lemma run_rubbing_valid :
  invalid_config rotor cfg = false ->
  run_rubbing engine rotor cfg = Completed (finish cfg (snd (stepping samples))).
Proof.
  intros Hv. unfold run_rubbing.
  replace (samples + 3)%nat with (S (S (S samples))) by lia.
  rewrite run_transition.
  change (run (S (S samples)) Configured)
    with (run samples (transition (transition Configured))).
  cbn [rubbing.transition]. rewrite Hv.
  rewrite run_stepping by lia. cbn [rubbing.transition].
  rewrite Nat.ltb_irrefl. reflexivity.
Qed.

(** A configuration that setup refuses fails at the first transition. *)
Lemma run_invalid (fuel : nat) :
  invalid_config rotor cfg = true ->
  run (S fuel) Configured = Failed ConfigurationError.
Proof.
  intros Hi. change (run (S fuel) Configured) with (run fuel (transition Configured)).
  cbn [rubbing.transition]. rewrite Hi. apply run_Failed.
Qed.

Lemma run_rubbing_Completed (res : Result.t) :
  run_rubbing engine rotor cfg = Completed res ->
  invalid_config rotor cfg = false
  /\ res = finish cfg (snd (stepping samples)).
Proof.
  intros Hrun. destruct (invalid_config rotor cfg) eqn:Hv.
  - unfold run_rubbing in Hrun.
    replace (samples + 3)%nat with (S (samples + 2)) in Hrun by lia.
    rewrite run_invalid in Hrun by exact Hv. discriminate.
  - rewrite run_rubbing_valid in Hrun by exact Hv.
    split; [reflexivity|congruence].
Qed.

Lemma hist_f_stepping (k : nat) :
  hist_f (snd (stepping k))
  = map (fun j => rub_force_vector engine rotor cfg (state_at engine rotor cfg j))
        (seq 0 k).
Proof.
  induction k as [|k IH]; [reflexivity|].
  rewrite seq_S, map_app. cbn [rubbing.stepping]. unfold step at 1.
  cbn [snd hist_f map]. rewrite IH. reflexivity.
Qed.

Lemma nth_insert_ne (l : list R) (i j : nat) (x : R) :
  i <> j -> nth j (<[i:=x]> l) 0 = nth j l 0.
Proof. intros Hij. rewrite !nth_lookup, list_lookup_insert_ne by exact Hij. reflexivity. Qed.


Lemma nth_zeros (len j : nat) : nth j (repeat 0 len) 0 = 0.
Proof.
  revert j. induction len as [|len IH]; intros [|j]; cbn; auto.
Qed.

Lemma rub_force_vector_length (s : State) :
  length (rub_force_vector engine rotor cfg s) = ndof rotor.
Proof.
  unfold rub_force_vector. destruct (rub_force _ _ _ _ _ _) as [Fx Fy].
  rewrite !length_insert. apply repeat_length.
Qed.

Lemma rub_force_vector_off_xy (s : State) (i : nat) :
  i <> rub_dof rotor cfg -> i <> S (rub_dof rotor cfg) ->
  nth i (rub_force_vector engine rotor cfg s) 0 = 0.
Proof.
  intros Hx Hy. unfold rub_force_vector.
  destruct (rub_force _ _ _ _ _ _) as [Fx Fy].
  rewrite !nth_insert_ne by congruence. apply nth_zeros.
Qed.


Lemma forces_rub_column (k : nat) :
  (k < samples)%nat ->
  nth k (hist_f (snd (stepping samples))) []
  = rub_force_vector engine rotor cfg (state_at engine rotor cfg k).
Proof.
  intros Hk. rewrite hist_f_stepping.
  rewrite (nth_indep _ [] (rub_force_vector engine rotor cfg (state_at engine rotor cfg 0)))
    by (rewrite length_map, length_seq; exact Hk).
  rewrite (map_nth (fun j => rub_force_vector engine rotor cfg (state_at engine rotor cfg j))).
  rewrite seq_nth by exact Hk. reflexivity.
Qed.

(** A DOF that is not of the rub node is neither its x nor its y DOF. *)
Lemma other_node_off_xy (i : nat) :
  (i / dofs_per_node (formulation rotor))%nat <> Z.to_nat (posRUB cfg) ->
  i <> rub_dof rotor cfg /\ i <> S (rub_dof rotor cfg).
Proof.
  intros Hnode. unfold rub_dof.
  set (p := Z.to_nat (posRUB cfg)) in *.
  assert (Hd : (2 <= dofs_per_node (formulation rotor))%nat)
    by (destruct (formulation rotor); cbn; lia).
  set (d := dofs_per_node (formulation rotor)) in *.
  split; intros ->; apply Hnode.
  - apply Nat.div_mul. lia.
  - replace (S (p * d)) with (1 + p * d)%nat by lia.
    rewrite Nat.div_add by lia. rewrite Nat.div_small by lia. lia.
Qed.

End IntegratorProperties.

(** ** The rubbing run *)

Section RubbingRun.

Import rubbing.
Local Open Scope R_scope.

Lemma forces_rub_shape (engine : Engine) (rotor : Rotor) (cfg : Config)
    (res : Result.t) :
  run_rubbing engine rotor cfg = Completed res ->
  length (Result.forces_rub res) = samples cfg
  /\ Forall (fun col => length col = ndof rotor) (Result.forces_rub res).
Proof.
  intros Hrun. apply run_rubbing_Completed in Hrun as [_ ->].
  cbn [finish Result.forces_rub]. rewrite hist_f_stepping. split.
  - rewrite length_map, length_seq. reflexivity.
  - apply Forall_forall. intros col Hin.
    apply list_elem_of_In, in_map_iff in Hin as (j & <- & _).
    apply rub_force_vector_length.
Qed.

Lemma forces_rub_at_run (engine : Engine) (rotor : Rotor) (cfg : Config)
    (res : Result.t) (i k : nat) :
  run_rubbing engine rotor cfg = Completed res ->
  forces_rub_at res i k
  = if decide (k < samples cfg)%nat
    then nth i (rub_force_vector engine rotor cfg (state_at engine rotor cfg k)) 0
    else 0.
Proof.
  intros Hrun. apply run_rubbing_Completed in Hrun as [_ ->].
  unfold forces_rub_at. cbn [finish Result.forces_rub].
  destruct (decide (k < samples cfg)%nat) as [Hk|Hk].
  - rewrite forces_rub_column by exact Hk. reflexivity.
  - assert (Hcol : nth k (hist_f (snd (stepping engine rotor cfg (samples cfg)))) [] = []).
    { apply nth_overflow. rewrite hist_f_stepping, length_map, length_seq. lia. }
    rewrite Hcol. destruct i; reflexivity.
Qed.

Lemma rub_config_valid : invalid_config (bare_rotor 34) rub_config = false.
Proof.
  unfold invalid_config.
  rewrite (bool_decide_eq_false_2 (dt rub_config <= 0)) by (cbn; lra).
  rewrite (bool_decide_eq_false_2 (tF rub_config <= tI rub_config)) by (cbn; lra).
  reflexivity.
Qed.

(** C2: in the result of every run, [forces_rub] is exactly zero, at every
    timestep, at every DOF that is not a DOF of the rub node [posRUB]. *)
Theorem C2_forces_rub_zero_off_rub_node :
  forall (engine : Engine) (rotor : Rotor) (cfg : Config) (res : Result.t),
    run_rubbing engine rotor cfg = Completed res ->
    forall i k : nat,
      (i / dofs_per_node (formulation rotor))%nat <> Z.to_nat (posRUB cfg) ->
      forces_rub_at res i k = 0.
Proof.
  intros engine rotor cfg res Hrun i k Hnode.
  rewrite (forces_rub_at_run engine rotor cfg) by exact Hrun.
  destruct (decide (k < samples cfg)%nat) as [_|_]; [|reflexivity].
  destruct (other_node_off_xy rotor cfg i Hnode) as [Hx Hy].
  apply rub_force_vector_off_xy; assumption.
Qed.

Lemma C2_witness :
  exists res : Result.t,
    run_rubbing still_engine (bare_rotor 34) rub_config = Completed res
    /\ forces_rub_at res 0 24 = 0.
Proof.
  eexists. split.
  - apply run_rubbing_valid, rub_config_valid.
  - apply (C2_forces_rub_zero_off_rub_node still_engine (bare_rotor 34) rub_config).
    + apply run_rubbing_valid, rub_config_valid.
    + cbn. lia.
Defined.

(** C5: the result of a run carries the configuration it was run with:
    [dt], [tI], [tF], [deltaRUB], [kRUB], [cRUB], [miRUB], [posRUB] and
    [speed] of the result are the values the caller passed. *)
Theorem C5_result_exposes_configuration :
  forall (engine : Engine) (rotor : Rotor) (cfg : Config) (res : Result.t),
    run_rubbing engine rotor cfg = Completed res ->
    Result.dt res = dt cfg /\ Result.tI res = tI cfg /\ Result.tF res = tF cfg
    /\ Result.deltaRUB res = deltaRUB cfg /\ Result.kRUB res = kRUB cfg
    /\ Result.cRUB res = cRUB cfg /\ Result.miRUB res = miRUB cfg
    /\ Result.posRUB res = posRUB cfg /\ Result.speed res = speed cfg.
Proof.
  intros engine rotor cfg res Hrun.
  apply run_rubbing_Completed in Hrun as [_ ->]. repeat split.
Qed.

(** The assertions of [test_rub_parameters]. *)
Lemma C5_witness :
  exists res : Result.t,
    run_rubbing still_engine (bare_rotor 34) rub_config = Completed res
    /\ Result.dt res = 1 / 1000 /\ Result.tI res = 0 /\ Result.tF res = 1 / 2
    /\ Result.deltaRUB res = 795 / 10000000 /\ Result.kRUB res = 1100000
    /\ Result.cRUB res = 40 /\ Result.miRUB res = 3 / 10
    /\ Result.posRUB res = 12%Z /\ Result.speed res = Constant 1200.
Proof.
  eexists. split.
  - apply run_rubbing_valid, rub_config_valid.
  - apply (C5_result_exposes_configuration still_engine (bare_rotor 34) rub_config).
    apply run_rubbing_valid, rub_config_valid.
Defined.

(** C6: a configuration with [dt <= 0], or [tF <= tI], or [posRUB] outside
    [0 <= posRUB < nNodes], or [massunb] and [phaseunb] of different lengths
    fails at setup with a configuration error: the first transition of the
    run is the failure, the run returns it, and no state is ever initialised
    or stepped. *)
Theorem C6_invalid_configuration_fails_at_setup :
  forall (engine : Engine) (rotor : Rotor) (cfg : Config),
    dt cfg <= 0 \/ tF cfg <= tI cfg
    \/ ~ (0 <= posRUB cfg < Z.of_nat (nNodes rotor))%Z
    \/ length (massunb cfg) <> length (phaseunb cfg) ->
    transition engine rotor cfg Configured = Failed ConfigurationError
    /\ run_rubbing engine rotor cfg = Failed ConfigurationError
    /\ forall fuel : nat,
         run engine rotor cfg fuel Configured = Configured
         \/ run engine rotor cfg fuel Configured = Failed ConfigurationError.
Proof.
  intros engine rotor cfg Hbad.
  assert (Hinv : invalid_config rotor cfg = true).
  { unfold invalid_config. destruct Hbad as [H|[H|[H|H]]].
    - rewrite (bool_decide_eq_true_2 _ H). reflexivity.
    - rewrite (bool_decide_eq_true_2 _ H), orb_true_r. reflexivity.
    - rewrite (bool_decide_eq_false_2 _ H). cbn [negb].
      rewrite orb_true_r. reflexivity.
    - rewrite (bool_decide_eq_false_2 _ H). cbn [negb].
      rewrite orb_true_r. reflexivity. }
  split; [|split].
  - cbn [transition]. rewrite Hinv. reflexivity.
  - unfold run_rubbing.
    replace (samples cfg + 3)%nat with (S (samples cfg + 2)) by lia.
    apply run_invalid, Hinv.
  - intros [|fuel]; [left; reflexivity|right; apply run_invalid, Hinv].
Qed.

Lemma C6_witness :
  run_rubbing still_engine (bare_rotor 34)
    {| dt := 0; tI := 0; tF := 1 / 2; deltaRUB := 795 / 10000000;
       kRUB := 1100000; cRUB := 40; miRUB := 3 / 10; posRUB := 12;
       speed := Constant 1200; massunb := [5 / 10000; 0];
       phaseunb := [- PI / 2; 0]; print_progress := true |}
  = Failed ConfigurationError.
Proof.
  apply (C6_invalid_configuration_fails_at_setup still_engine (bare_rotor 34)).
  left. cbn. lra.
Defined.

(** *** The contact law along the x axis *)

Lemma penetration_on_axis (cfg : Config) (h : R) :
  0 <= deltaRUB cfg + h -> penetration cfg (deltaRUB cfg + h) 0 = h.
Proof.
  intros Hh. unfold penetration.
  replace ((deltaRUB cfg + h) ^ 2 + 0 ^ 2) with ((deltaRUB cfg + h) ^ 2) by ring.
  rewrite sqrt_pow2 by exact Hh. ring.
Qed.



(** *** Histories and continuity of the contact law *)















(** C4: in contact (penetration [delta > 0]) the force returned for the rub
    node has, along the contact normal, the component
    [Fn = max(0, kRUB*delta + cRUB*delta_dot)], with [delta_dot] the radial
    velocity: it is never negative, the elastic plus viscous sum where that
    is not negative and zero otherwise.  Along the tangent it has the
    component of size [Ft = miRUB*Fn], directed against the tangential
    velocity, and by the engine's fixed sign at tangential velocity zero. *)
Theorem C4_contact_normal_and_friction :
  forall (engine : Engine) (cfg : Config) (x y vx vy : R),
    let delta := penetration cfg x y in
    let phi := atan2 y x in
    let delta_dot := radial phi vx vy in
    let vt := tangential phi vx vy in
    let F := rub_force engine cfg x y vx vy in
    let Fn := radial phi (fst F) (snd F) in
    let T := tangential phi (fst F) (snd F) in
    0 < delta ->
    Fn = Rmax 0 (kRUB cfg * delta + cRUB cfg * delta_dot)
    /\ 0 <= Fn
    /\ (0 <= kRUB cfg * delta + cRUB cfg * delta_dot ->
        Fn = kRUB cfg * delta + cRUB cfg * delta_dot)
    /\ (kRUB cfg * delta + cRUB cfg * delta_dot <= 0 -> Fn = 0)
    /\ (0 < vt -> T = - (miRUB cfg * Fn))
    /\ (vt < 0 -> T = miRUB cfg * Fn)
    /\ (vt = 0 -> T = sign_value (rest_sign engine) * (miRUB cfg * Fn))
    /\ (0 <= miRUB cfg -> T * vt <= 0).
Proof.
  intros engine cfg x y vx vy delta phi delta_dot vt F Fn T Hd.
  assert (HFn : Fn = normal_force cfg delta delta_dot).
  { subst Fn F. rewrite rub_force_contact by exact Hd. cbv zeta.
    apply radial_project. }
  assert (HT : T = friction_direction engine vt * friction_force cfg Fn).
  { rewrite HFn. subst T F. rewrite rub_force_contact by exact Hd. cbv zeta.
    apply tangential_project. }
  assert (Hpos : 0 <= Fn) by (rewrite HFn; apply normal_force_nonneg).
  repeat apply conj.
  - exact HFn.
  - exact Hpos.
  - intros Hsum. rewrite HFn. unfold normal_force. apply Rmax_right. exact Hsum.
  - intros Hsum. rewrite HFn. unfold normal_force. apply Rmax_left. exact Hsum.
  - intros Hvt. rewrite HT. unfold friction_direction, friction_force.
    destruct (decide (0 < vt)) as [_|Hn]; [ring|contradiction].
  - intros Hvt. rewrite HT. unfold friction_direction, friction_force.
    destruct (decide (0 < vt)) as [Hp|_]; [lra|].
    destruct (decide (vt < 0)) as [_|Hn]; [ring|contradiction].
  - intros Hvt. rewrite HT. unfold friction_direction, friction_force.
    destruct (decide (0 < vt)) as [Hp|_]; [lra|].
    destruct (decide (vt < 0)) as [Hn|_]; [lra|reflexivity].
  - intros Hmi. rewrite HT. unfold friction_force.
    pose proof (friction_direction_opposes engine vt) as Hop.
    assert (Hft : 0 <= miRUB cfg * Fn) by nra.
    replace (friction_direction engine vt * (miRUB cfg * Fn) * vt)
      with ((miRUB cfg * Fn) * (friction_direction engine vt * vt)) by ring.
    nra.
Qed.

Lemma C4_witness :
  let F := rub_force still_engine rub_config 1 0 0 1 in
  0 <= radial (atan2 0 1) (fst F) (snd F).
Proof.
  apply (C4_contact_normal_and_friction still_engine rub_config 1 0 0 1).
  replace 1 with (deltaRUB rub_config + (1 - deltaRUB rub_config)) at 1 by ring.
  rewrite penetration_on_axis; cbn; lra.
Defined.

End RubbingRun.


(** * Further properties of [point_mass.py] *)

(** ** Construction, mass matrix, mapping and hash *)

Section PointMassConstruction.

Import point_mass.

(** X1: building an element again from the attributes of a constructed element
    gives the same element, and a constructed element has both directional
    masses [None] only when [m] is [None] as well. *)
Theorem init_from_attributes :
  forall (n0 : option Z) (m0 mx0 my0 : option Q) (tag0 : option string),
    let p := __init__ n0 m0 mx0 my0 tag0 in
    __init__ (n p) (m p) (mx p) (my p) (tag p) = p
    /\ (mx p = None -> my p = None -> m p = None).
Proof.
  intros n0 m0 mx0 my0 tag0 p. subst p.
  destruct m0, mx0, my0; cbn; split; try reflexivity; intros; congruence.
Qed.

(** The mass matrix holds [None] exactly where a directional mass is. *)
Lemma M_numeric (self : PointMass) :
  np.numeric (fst (M self)) <-> is_Some (mx self) /\ is_Some (my self).
Proof.
  unfold np.numeric.
  change (fst (M self)) with [[mx self; Some 0%Q]; [Some 0%Q; my self]].
  rewrite !Forall_cons, !Forall_nil. split.
  - intros ((Hmx & _ & _) & (_ & Hmy & _) & _). split; assumption.
  - intros [Hmx Hmy]. repeat split; eauto.
Qed.

(** X2: the mass matrix of a constructed element is free of [None] exactly when
    both directional masses were given, or neither was and [m] was. *)
Theorem M_numeric_iff :
  forall (n0 : option Z) (m0 mx0 my0 : option Q) (tag0 : option string),
    np.numeric (fst (M (__init__ n0 m0 mx0 my0 tag0)))
    <-> (is_Some mx0 /\ is_Some my0)
        \/ (mx0 = None /\ my0 = None /\ is_Some m0).
Proof.
  intros n0 m0 mx0 my0 tag0. rewrite M_numeric.
  destruct m0 as [a|], mx0 as [b|], my0 as [c|]; cbn; split; intros H;
    repeat match goal with
           | H : _ /\ _ |- _ => destruct H
           | H : _ \/ _ |- _ => destruct H
           | H : is_Some None |- _ => destruct (is_Some_None H)
           | H : Some _ = None |- _ => discriminate H
           | H : None = Some _ |- _ => discriminate H
           end;
    first [ split; eexists; reflexivity
          | left; split; eexists; reflexivity
          | right; repeat split; eexists; reflexivity ].
Qed.

(** X3: once one directional mass is given, [m] plays no part in the mass
    matrix, not even for the direction that is missing, although the
    attribute [m] keeps the argument. *)
Theorem M_ignores_m_beside_directional_mass :
  forall (n0 : option Z) (m0 m1 mx0 my0 : option Q) (tag0 : option string),
    is_Some mx0 \/ is_Some my0 ->
    fst (M (__init__ n0 m0 mx0 my0 tag0)) = fst (M (__init__ n0 m1 mx0 my0 tag0))
    /\ fst (M (__init__ n0 m0 mx0 my0 tag0)) = [[mx0; Some 0%Q]; [Some 0%Q; my0]]
    /\ m (__init__ n0 m0 mx0 my0 tag0) = m0.
Proof.
  intros n0 m0 m1 mx0 my0 tag0 Hgiven.
  destruct mx0, my0; try (repeat split; reflexivity).
  destruct Hgiven as [[? ?]|[? ?]]; discriminate.
Qed.

Lemma M_ignores_m_beside_directional_mass_witness :
  fst (M (__init__ (Some 0%Z) (Some 5%Q) (Some 2%Q) None None))
  = [[Some 2%Q; Some 0%Q]; [Some 0%Q; None]].
Proof.
  apply (M_ignores_m_beside_directional_mass
           (Some 0%Z) (Some 5%Q) None (Some 2%Q) None None).
  left. eexists. reflexivity.
Defined.

(** X4: [dof_mapping()] names every row and column of the element matrices
    once: each index it gives is an index of [M()], [C()], [K()] and [G()],
    two names never share an index, and each of the two indices has a
    name. *)
Theorem dof_mapping_indexes_the_matrices :
  forall self : PointMass,
    let dofs := fst (dof_mapping self) in
    (forall (k : string) (i : nat),
        dofs !! k = Some i ->
        is_Some (np.item (fst (M self)) i i)
        /\ is_Some (np.item (fst (C self)) i i)
        /\ is_Some (np.item (fst (K self)) i i)
        /\ is_Some (np.item (fst (G self)) i i))
    /\ (forall (k1 k2 : string) (i : nat),
          dofs !! k1 = Some i -> dofs !! k2 = Some i -> k1 = k2)
    /\ (forall i j : nat,
          is_Some (np.item (fst (M self)) i j) ->
          (exists k : string, dofs !! k = Some i)
          /\ (exists k : string, dofs !! k = Some j)).
Proof.
  intros self dofs.
  assert (Hdofs : forall (k : string) (i : nat),
             dofs !! k = Some i
             <-> (k = "x_0" /\ i = 0%nat) \/ (k = "y_0" /\ i = 1%nat)).
  { intros k i. subst dofs.
    change (fst (dof_mapping self))
      with ({[ "x_0" := 0%nat; "y_0" := 1%nat ]} : gmap string nat).
    rewrite lookup_insert_Some, lookup_singleton_Some. split.
    - intros [[<- <-]|[Hne [<- <-]]]; auto.
    - intros [[-> ->]|[-> ->]]; [left; auto|right; split; [discriminate|auto]]. }
  repeat apply conj.
  - intros k i Hk. apply Hdofs in Hk as [[_ ->]|[_ ->]];
      repeat split; eexists; reflexivity.
  - intros k1 k2 i H1 H2. apply Hdofs in H1, H2.
    destruct H1 as [[-> ->]|[-> ->]], H2 as [[-> ?]|[-> ?]];
      congruence.
  - intros i j [e He].
    assert (Hij : (i < 2)%nat /\ (j < 2)%nat).
    { destruct i as [|[|[|i]]], j as [|[|[|j]]];
        first [split; lia | discriminate He]. }
    destruct Hij as [Hi Hj].
    split; [exists (if decide (i = 0%nat) then "x_0" else "y_0")
           |exists (if decide (j = 0%nat) then "x_0" else "y_0")];
      apply Hdofs; case_decide; [left|right|left|right]; split; auto; lia.
Qed.

(** X5: [__hash__] reads the tag only: it leaves the element as it is, two
    elements with one tag hash alike whatever their node and masses, and
    no sequence of matrix calls changes an element's hash. *)
Theorem hash_depends_on_tag_only :
  forall (hash : option string -> Z) (p q : PointMass) (ops : list operation),
    tag p = tag q ->
    fst (__hash__ hash p) = fst (__hash__ hash q)
    /\ snd (__hash__ hash p) = p
    /\ fst (__hash__ hash (snd (calls ops p))) = fst (__hash__ hash p).
Proof.
  intros hash p q ops Htag. repeat split.
  - change (hash (tag p) = hash (tag q)). rewrite Htag. reflexivity.
  - rewrite calls_frame. reflexivity.
Qed.

Lemma hash_depends_on_tag_only_witness :
  let hash := fun t : option string =>
                match t with
                | Some s => Z.of_nat (String.length s)
                | None => 0%Z
                end in
  fst (__hash__ hash (__init__ (Some 0%Z) (Some 2%Q) None None None))
  = fst (__hash__ hash (__init__ (Some 7%Z) None (Some 1%Q) (Some 3%Q) None)).
Proof.
  intros hash.
  apply (hash_depends_on_tag_only hash
           (__init__ (Some 0%Z) (Some 2%Q) None None None)
           (__init__ (Some 7%Z) None (Some 1%Q) (Some 3%Q) None) []).
  reflexivity.
Defined.

End PointMassConstruction.

(** ** [patch] and [bokeh_patch] *)

Section PlottingProperties.

Import point_mass.

Lemma patch_without_palette (globals : Globals) (self : PointMass)
    (position : Q * Q) (kwargs : gmap string py.value) (ax : mpatches.Axes) :
  bokeh_colors globals = None ->
  patch globals self position kwargs ax = (py.Raise py.NameError, ax).
Proof.
  intros Hunbound. destruct position as [zpos ypos].
  unfold patch, mbind, py.stmt_bind, py.eval. rewrite Hunbound. reflexivity.
Qed.

Lemma bokeh_patch_without_palette (globals : Globals) (self : PointMass)
    (position : Q * Q) (kwargs : gmap string py.value) (bk_ax : bokeh.Figure) :
  bokeh_colors globals = None ->
  bokeh_patch globals self position kwargs bk_ax = (py.Raise py.NameError, bk_ax).
Proof.
  intros Hunbound. destruct position as [zpos ypos].
  unfold bokeh_patch, mbind, py.stmt_bind, py.eval. rewrite Hunbound.
  reflexivity.
Qed.

(** X6: in the module as it is written, every call of [patch] ends in a
    [NameError], whatever the element, the position and the options, and
    leaves the axes as they were: [bokeh_colors], the first global name the
    body loads, is not bound, and neither is [mpatches]. *)
Theorem patch_raises_NameError :
  forall (self : PointMass) (position : Q * Q)
         (kwargs : gmap string py.value) (ax : mpatches.Axes),
    patch module_globals self position kwargs ax = (py.Raise py.NameError, ax).
Proof.
  intros self position kwargs ax. apply patch_without_palette. reflexivity.
Qed.

(** X9: in the module as it is written, every call of [bokeh_patch] ends
    in a [NameError], whatever the element, the position and the options;
    nothing is drawn on the figure and no hover tool is returned. *)
Theorem bokeh_patch_raises_NameError :
  forall (self : PointMass) (position : Q * Q)
         (kwargs : gmap string py.value) (bk_ax : bokeh.Figure),
    bokeh_patch module_globals self position kwargs bk_ax
    = (py.Raise py.NameError, bk_ax).
Proof.
  intros self position kwargs bk_ax. apply bokeh_patch_without_palette.
  reflexivity.
Qed.

End PlottingProperties.

(** * The shaft of the test rotor *)

Section ShaftOfTheTest.

Import test_rubbing.

Lemma differences_closed_form (L : list Q) :
  differences L = Some (zip_with (fun b a => b - a)%Q (drop 1 L) L).
Proof.
  unfold differences. apply mapM_Some_2, Forall2_same_length_lookup. split.
  - rewrite length_seq, length_zip_with, length_drop. lia.
  - intros i j d Hj Hd. apply lookup_seq in Hj as [-> Hi].
    rewrite lookup_zip_with, lookup_drop in Hd.
    replace (1 + i - 1)%nat with i by lia.
    destruct (L !! (1 + i)%nat) as [b|]; [|discriminate].
    destruct (L !! i) as [a|]; [|discriminate].
    exact Hd.
Qed.

(** X13: the list of element lengths is built without an [IndexError] whatever
    the list of positions, the empty one included; it has one entry fewer
    than there are positions (none for no position), and entry [i] is the
    distance from position [i] to position [i + 1]. *)
Theorem differences_one_per_gap :
  forall L : list Q,
    exists ds : list Q,
      differences L = Some ds
      /\ length ds = (length L - 1)%nat
      /\ (forall (i : nat) (a b : Q),
             L !! i = Some a -> L !! S i = Some b ->
             ds !! i = Some (b - a)%Q).
Proof.
  intros L. eexists. split; [apply differences_closed_form|]. split.
  - rewrite length_zip_with, length_drop. lia.
  - intros i a b Ha Hb. rewrite lookup_zip_with, lookup_drop.
    change (1 + i)%nat with (S i). rewrite Hb, Ha. reflexivity.
Qed.

(** X14: when the positions increase strictly, every element length is
    positive. *)
Theorem differences_positive :
  forall L ds : list Q,
    (forall (i : nat) (a b : Q),
        L !! i = Some a -> L !! S i = Some b -> (a < b)%Q) ->
    differences L = Some ds ->
    Forall (fun d => (0 < d)%Q) ds.
Proof.
  intros L ds Hinc Hds. rewrite differences_closed_form in Hds.
  injection Hds as <-. apply Forall_lookup. intros i d Hd.
  rewrite lookup_zip_with, lookup_drop in Hd.
  destruct (L !! (1 + i)%nat) as [b|] eqn:Hb; [|discriminate].
  destruct (L !! i) as [a|] eqn:Ha; [|discriminate].
  injection Hd as <-. pose proof (Hinc i a b Ha Hb) as Hlt.
  unfold Qminus. rewrite <- (Qplus_opp_r a).
  apply Qplus_lt_l. exact Hlt.
Qed.

Lemma L_increases (i : nat) (a b : Q) :
  L !! i = Some a -> L !! S i = Some b -> (a < b)%Q.
Proof.
  unfold L. intros Ha Hb.
  do 34 (destruct i as [|i];
         [cbn in Ha, Hb;
          first [discriminate Hb
                |injection Ha as <-; injection Hb as <-; reflexivity]|]).
  discriminate Ha.
Qed.

Lemma differences_positive_witness :
  exists ds : list Q,
    differences L = Some ds
    /\ length ds = 33%nat
    /\ Forall (fun d => (0 < d)%Q) ds.
Proof.
  eexists. split; [apply differences_closed_form|]. split; [reflexivity|].
  apply (differences_positive L); [exact L_increases|].
  apply differences_closed_form.
Defined.

End ShaftOfTheTest.
